(** * Model signature verification gate (model_verification.cpp)

    A shallow embedding of [verify_model_signature] and [load_model_safely]
    together with the properties of the fail-closed integrity gate they
    implement.  The mbedTLS primitives are external to the program: they are
    an interface ([mbedtls]) over which every general theorem quantifies.
    What the program does to the outside world (library calls, log lines,
    acquisition and release of the two cryptographic contexts) is recorded
    in an explicit [world] threaded through a small state monad. *)

From Stdlib Require Import ZArith List String Ascii Bool Lia.
From Stdlib.Strings Require Import Byte.
Import ListNotations.
Open Scope Z_scope.

Set Implicit Arguments.

(** ** C scalar types and string literals *)

(** [int] return codes are only compared with zero and passed on, never
    computed with, so no wrap-around can occur on them. *)
Definition int : Type := Z.
Definition size_t : Type := Z.

Definition LF : string := String (ascii_of_nat 10) EmptyString.

(** The bytes a C string literal occupies: its characters and the
    terminating NUL. *)
Definition c_str (s : string) : list byte := list_byte_of_string s ++ [x00].

Definition strlen (s : string) : size_t := Z.of_nat (String.length s).

(** Public key (should be stored in secure element or embedded in firmware) *)
Definition PUBLIC_KEY_PEM : string :=
  ("-----BEGIN PUBLIC KEY-----" ++ LF ++
   "MFkwEwYHKoZIzj0CAQYIKoZIzj0CAQcDQgAE..." ++ LF ++
   "-----END PUBLIC KEY-----" ++ LF)%string.

Record model_package_t : Type := {
  model_data : list byte;
  model_size : size_t;
  signature : list byte;
  signature_size : size_t;
  model_id : string;
  model_version : string
}.

(** ** The mbedTLS interface *)

(** The message-digest selector handed to [mbedtls_pk_verify]. *)
Inductive mbedtls_md_type_t : Type :=
| MBEDTLS_MD_NONE
| MBEDTLS_MD_SHA1
| MBEDTLS_MD_SHA224
| MBEDTLS_MD_SHA256
| MBEDTLS_MD_SHA384
| MBEDTLS_MD_SHA512.

(** The primitives the program calls.  A context is a value the primitive
    receives and gives back updated; a primitive that reports a status
    returns it first.  [mbedtls_sha256_finish_ret] also yields the bytes it
    wrote to the output buffer. *)
Record mbedtls : Type := {
  mbedtls_pk_context : Type;
  mbedtls_sha256_context : Type;
  mbedtls_pk_init : mbedtls_pk_context;
  mbedtls_sha256_init : mbedtls_sha256_context;
  mbedtls_pk_parse_public_key :
    mbedtls_pk_context -> list byte -> size_t -> int * mbedtls_pk_context;
  mbedtls_sha256_starts_ret :
    mbedtls_sha256_context -> int -> int * mbedtls_sha256_context;
  mbedtls_sha256_update_ret :
    mbedtls_sha256_context -> list byte -> size_t ->
    int * mbedtls_sha256_context;
  mbedtls_sha256_finish_ret :
    mbedtls_sha256_context -> int * mbedtls_sha256_context * list byte;
  mbedtls_pk_verify :
    mbedtls_pk_context -> mbedtls_md_type_t -> list byte -> size_t ->
    list byte -> size_t -> int
}.

(** ** Observable world *)

Inductive ctx : Type := ctx_pk | ctx_sha256.

Definition ctx_eqb (a b : ctx) : bool :=
  match a, b with
  | ctx_pk, ctx_pk | ctx_sha256, ctx_sha256 => true
  | _, _ => false
  end.

Inductive printf_arg : Type :=
| arg_int (n : int)
| arg_str (s : string).

(** One entry per externally visible action, with the arguments passed and
    the status returned. *)
Inductive event : Type :=
| ev_pk_init
| ev_sha256_init
| ev_pk_parse_public_key (key : list byte) (keylen : size_t) (rc : int)
| ev_sha256_starts_ret (is224 : int) (rc : int)
| ev_sha256_update_ret (input : list byte) (ilen : size_t) (rc : int)
| ev_sha256_finish_ret (output : list byte) (rc : int)
| ev_pk_verify (md_alg : mbedtls_md_type_t) (hash : list byte)
    (hash_len : size_t) (sig : list byte) (sig_len : size_t) (rc : int)
| ev_printf (fmt : string) (args : list printf_arg)
| ev_pk_free
| ev_sha256_free.

(** [trace] is chronological (oldest first); [live] lists the contexts that
    were initialised and not yet freed. *)
Record world : Type := {
  trace : list event;
  live : list ctx
}.

Definition empty_world : world := {| trace := []; live := [] |}.

Fixpoint remove_one (c : ctx) (l : list ctx) : list ctx :=
  match l with
  | [] => []
  | x :: l' => if ctx_eqb c x then l' else x :: remove_one c l'
  end.

(** ** State monad over the world *)

Definition M (A : Type) : Type := world -> A * world.

Definition mret {A} (a : A) : M A := fun w => (a, w).

Definition mbind {A B} (m : M A) (k : A -> M B) : M B :=
  fun w => let (a, w') := m w in k a w'.

Declare Scope m_scope.
Delimit Scope m_scope with M.
Notation "x <- m ;; k" := (mbind m (fun x => k))
  (at level 61, m at next level, right associativity) : m_scope.
Notation "' p <- m ;; k" := (mbind m (fun x => match x with p => k end))
  (at level 61, p pattern, m at next level, right associativity) : m_scope.
Notation "m ;;; k" := (mbind m (fun _ => k))
  (at level 61, right associativity) : m_scope.
Notation "a !=? b" := (negb (Z.eqb a b)) (at level 70) : Z_scope.

Definition emit (e : event) : M unit :=
  fun w => (tt, {| trace := trace w ++ [e]; live := live w |}).

Definition acquire (c : ctx) : M unit :=
  fun w => (tt, {| trace := trace w; live := c :: live w |}).

Definition release (c : ctx) : M unit :=
  fun w => (tt, {| trace := trace w; live := remove_one c (live w) |}).

Definition printf (fmt : string) (args : list printf_arg) : M unit :=
  emit (ev_printf fmt args).

(** ** The program *)

Section Program.

Variable lib : mbedtls.

Local Open Scope m_scope.

Definition pk_init : M (mbedtls_pk_context lib) :=
  emit ev_pk_init ;;; acquire ctx_pk ;;; mret (mbedtls_pk_init lib).

Definition sha256_init : M (mbedtls_sha256_context lib) :=
  emit ev_sha256_init ;;; acquire ctx_sha256 ;;; mret (mbedtls_sha256_init lib).

Definition pk_free : M unit := emit ev_pk_free ;;; release ctx_pk.

Definition sha256_free : M unit := emit ev_sha256_free ;;; release ctx_sha256.

Definition pk_parse_public_key (pk : mbedtls_pk_context lib)
    (key : list byte) (keylen : size_t) : M (int * mbedtls_pk_context lib) :=
  let r := mbedtls_pk_parse_public_key lib pk key keylen in
  emit (ev_pk_parse_public_key key keylen (fst r)) ;;; mret r.

Definition sha256_starts_ret (c : mbedtls_sha256_context lib) (is224 : int)
    : M (int * mbedtls_sha256_context lib) :=
  let r := mbedtls_sha256_starts_ret lib c is224 in
  emit (ev_sha256_starts_ret is224 (fst r)) ;;; mret r.

Definition sha256_update_ret (c : mbedtls_sha256_context lib)
    (input : list byte) (ilen : size_t)
    : M (int * mbedtls_sha256_context lib) :=
  let r := mbedtls_sha256_update_ret lib c input ilen in
  emit (ev_sha256_update_ret input ilen (fst r)) ;;; mret r.

Definition sha256_finish_ret (c : mbedtls_sha256_context lib)
    : M (int * mbedtls_sha256_context lib * list byte) :=
  let r := mbedtls_sha256_finish_ret lib c in
  emit (ev_sha256_finish_ret (snd r) (fst (fst r))) ;;; mret r.

Definition pk_verify (pk : mbedtls_pk_context lib)
    (md_alg : mbedtls_md_type_t) (hash : list byte) (hash_len : size_t)
    (sig : list byte) (sig_len : size_t) : M int :=
  let r := mbedtls_pk_verify lib pk md_alg hash hash_len sig sig_len in
  emit (ev_pk_verify md_alg hash hash_len sig sig_len r) ;;; mret r.

(** The statements of [verify_model_signature] between initialisation and
    the [cleanup] label; every [goto cleanup] is an early result. *)
Definition verify_model_signature_body (package : model_package_t)
    (pk : mbedtls_pk_context lib) (sha256 : mbedtls_sha256_context lib)
    : M int :=
  (* Parse public key *)
  '(ret, pk) <- pk_parse_public_key pk
                  (c_str PUBLIC_KEY_PEM) (strlen PUBLIC_KEY_PEM + 1) ;;
  if ret !=? 0 then
    printf ("Failed to parse public key: %d" ++ LF) [arg_int ret] ;;;
    mret ret
  else
  (* Hash model data *)
  '(ret, sha256) <- sha256_starts_ret sha256 0 ;;
  if ret !=? 0 then mret ret else
  '(ret, sha256) <- sha256_update_ret sha256
                      (model_data package) (model_size package) ;;
  if ret !=? 0 then mret ret else
  '(ret, sha256, hash) <- sha256_finish_ret sha256 ;;
  if ret !=? 0 then mret ret else
  (* Verify signature *)
  ret <- pk_verify pk MBEDTLS_MD_SHA256 hash 32
           (signature package) (signature_size package) ;;
  (if ret =? 0 then
     printf ("Model signature verified: %s v%s" ++ LF)
       [arg_str (model_id package); arg_str (model_version package)]
   else
     printf ("Model signature verification failed: %d" ++ LF)
       [arg_int ret]) ;;;
  mret ret.

(** Verify model signature.  Returns 0 on success, non-zero on failure. *)
Definition verify_model_signature (package : model_package_t) : M int :=
  (* Initialize *)
  pk <- pk_init ;;
  sha256 <- sha256_init ;;
  ret <- verify_model_signature_body package pk sha256 ;;
  (* cleanup: *)
  pk_free ;;;
  sha256_free ;;;
  mret ret.

(** Load model safely (verify before loading).  Returns 0 on success,
    non-zero on failure. *)
Definition load_model_safely (package : model_package_t) : M int :=
  (* Verify signature first *)
  ret <- verify_model_signature package ;;
  if ret !=? 0 then
    mret (-1) (* Refuse to load *)
  else
    (* Load model *)
    mret 0.

End Program.

(** ** The Verification Gate as the specification words it *)

Inductive rejection : Type :=
| KeyParseError
| DigestComputationError
| SignatureInvalid.

(** [Accepted] is the outcome that admits the package. *)
Inductive VerificationOutcome : Type :=
| Accepted
| Rejected (reason : rejection).

Section Gate.

Variable lib : mbedtls.

(** Step 1: parse the trusted key into a key handle. *)
Definition parse_key (trustedKey : list byte)
    : int * mbedtls_pk_context lib :=
  mbedtls_pk_parse_public_key lib (mbedtls_pk_init lib)
    trustedKey (Z.of_nat (List.length trustedKey)).

(** Step 2 (Digest Engine): the status and the digest of a payload; the
    first primitive that fails decides the status. *)
Definition digest (payload : list byte) (len : size_t) : int * list byte :=
  let (r1, c1) := mbedtls_sha256_starts_ret lib (mbedtls_sha256_init lib) 0 in
  if r1 !=? 0 then (r1, []) else
  let (r2, c2) := mbedtls_sha256_update_ret lib c1 payload len in
  if r2 !=? 0 then (r2, []) else
  let '(r3, _, h) := mbedtls_sha256_finish_ret lib c2 in
  (r3, h).

(** Step 3: the signature check of a digest under a key handle. *)
Definition check_signature (pk : mbedtls_pk_context lib) (h : list byte)
    (sig : list byte) (sig_len : size_t) : int :=
  mbedtls_pk_verify lib pk MBEDTLS_MD_SHA256 h 32 sig sig_len.

(** [verify(package, trustedKey)] of the Verification Gate. *)
Definition verify (package : model_package_t) (trustedKey : list byte)
    : VerificationOutcome :=
  let (rk, pk) := parse_key trustedKey in
  if rk !=? 0 then Rejected KeyParseError else
  let (rd, h) := digest (model_data package) (model_size package) in
  if rd !=? 0 then Rejected DigestComputationError else
  if check_signature pk h (signature package) (signature_size package) !=? 0
  then Rejected SignatureInvalid
  else Accepted.

(** The statuses of the three steps on the key compiled into the program. *)
Definition key_rc : int := fst (parse_key (c_str PUBLIC_KEY_PEM)).

Definition digest_rc (package : model_package_t) : int :=
  fst (digest (model_data package) (model_size package)).

Definition signature_rc (package : model_package_t) : int :=
  check_signature (snd (parse_key (c_str PUBLIC_KEY_PEM)))
    (snd (digest (model_data package) (model_size package)))
    (signature package) (signature_size package).

End Gate.

(** ** Reading a trace *)

Definition is_printf (e : event) : bool :=
  match e with ev_printf _ _ => true | _ => false end.

Definition is_call (e : event) : bool :=
  match e with
  | ev_pk_parse_public_key _ _ _ | ev_sha256_starts_ret _ _
  | ev_sha256_update_ret _ _ _ | ev_sha256_finish_ret _ _
  | ev_pk_verify _ _ _ _ _ _ => true
  | _ => false
  end.

Definition rc_of (e : event) : int :=
  match e with
  | ev_pk_parse_public_key _ _ rc | ev_sha256_starts_ret _ rc
  | ev_sha256_update_ret _ _ rc | ev_sha256_finish_ret _ rc
  | ev_pk_verify _ _ _ _ _ rc => rc
  | _ => 0
  end.

(** What one call of [verify_model_signature] returns and appends to the
    trace, read off a run from the empty world. *)
Definition verify_ret (lib : mbedtls) (package : model_package_t) : int :=
  fst (verify_model_signature lib package empty_world).

Definition verify_events (lib : mbedtls) (package : model_package_t)
    : list event :=
  trace (snd (verify_model_signature lib package empty_world)).

(** The five library calls of a complete run, in program order, each with
    the arguments it receives and the status it returns. *)
Definition pipeline (lib : mbedtls) (package : model_package_t)
    : list event :=
  let k := parse_key lib (c_str PUBLIC_KEY_PEM) in
  let s := mbedtls_sha256_starts_ret lib (mbedtls_sha256_init lib) 0 in
  let u := mbedtls_sha256_update_ret lib (snd s)
             (model_data package) (model_size package) in
  let f := mbedtls_sha256_finish_ret lib (snd u) in
  [ ev_pk_parse_public_key (c_str PUBLIC_KEY_PEM)
      (strlen PUBLIC_KEY_PEM + 1) (fst k);
    ev_sha256_starts_ret 0 (fst s);
    ev_sha256_update_ret (model_data package) (model_size package) (fst u);
    ev_sha256_finish_ret (snd f) (fst (fst f));
    ev_pk_verify MBEDTLS_MD_SHA256 (snd f) 32
      (signature package) (signature_size package)
      (mbedtls_pk_verify lib (snd k) MBEDTLS_MD_SHA256 (snd f) 32
         (signature package) (signature_size package)) ].

(** The calls up to and including the first one whose status is not 0. *)
Fixpoint until_failure (l : list event) : list event :=
  match l with
  | [] => []
  | e :: l' => if rc_of e !=? 0 then [e] else e :: until_failure l'
  end.

Definition is_str_arg (s : string) (a : printf_arg) : bool :=
  match a with
  | arg_str t => String.eqb s t
  | arg_int _ => false
  end.

(** A log line names the model when both its identifier and its version
    are among the arguments printed. *)
Definition names_model (package : model_package_t) (e : event) : bool :=
  match e with
  | ev_printf _ args =>
      existsb (is_str_arg (model_id package)) args &&
      existsb (is_str_arg (model_version package)) args
  | _ => false
  end.

(** ** A test double of the library *)

Module Stub.

(** Status codes in the style of the library's error codes. *)
Definition ERR_PK_KEY_INVALID_FORMAT : int := -15616.
Definition ERR_PK_BAD_INPUT_DATA : int := -16000.
Definition ERR_PK_SIG_LEN_MISMATCH : int := -14592.
Definition ERR_ECP_VERIFY_FAILED : int := -19968.
Definition ERR_SHA256_HW_ACCEL_FAILED : int := -55.

(** Faults to inject: a status for each hash primitive (0 for none), and
    whether the key parser insists on a base64 body. *)
Record faults : Type := {
  starts_fault : int;
  update_fault : int;
  finish_fault : int;
  strict_pem : bool
}.

Definition no_faults : faults :=
  {| starts_fault := 0; update_fault := 0; finish_fault := 0;
     strict_pem := false |}.

Fixpoint bytes_eqb (a b : list byte) : bool :=
  match a, b with
  | [], [] => true
  | x :: a', y :: b' => Byte.eqb x y && bytes_eqb a' b'
  | _, _ => false
  end.

Definition begins_with (prefix l : list byte) : bool :=
  bytes_eqb prefix (firstn (List.length prefix) l).

Definition BEGIN_MARKER : list byte :=
  list_byte_of_string "-----BEGIN PUBLIC KEY-----".

(** Not a hash: the input cut or zero-padded to 32 bytes. *)
Definition toy_digest (data : list byte) : list byte :=
  firstn 32 (data ++ repeat x00 32).

(** The key parser wants the BEGIN marker and, when strict, no full stop
    (x2e, never a base64 character) anywhere in the container.  The hash
    context is the input absorbed so far.  A signature is valid when it
    is the digest itself. *)
Definition lib (f : faults) : mbedtls := {|
  mbedtls_pk_context := option (list byte);
  mbedtls_sha256_context := list byte;
  mbedtls_pk_init := None;
  mbedtls_sha256_init := [];
  mbedtls_pk_parse_public_key := fun _ key keylen =>
    if begins_with BEGIN_MARKER key &&
       negb (strict_pem f && existsb (Byte.eqb x2e) key)
    then (0, Some (firstn (Z.to_nat keylen) key))
    else (ERR_PK_KEY_INVALID_FORMAT, None);
  mbedtls_sha256_starts_ret := fun _ _ => (starts_fault f, []);
  mbedtls_sha256_update_ret := fun c input ilen =>
    (update_fault f, c ++ firstn (Z.to_nat ilen) input);
  mbedtls_sha256_finish_ret := fun c => (finish_fault f, c, toy_digest c);
  mbedtls_pk_verify := fun pk _ hash hash_len sig sig_len =>
    match pk with
    | None => ERR_PK_BAD_INPUT_DATA
    | Some _ =>
        if sig_len <? hash_len then ERR_PK_SIG_LEN_MISMATCH
        else if bytes_eqb (firstn (Z.to_nat sig_len) sig)
                  (firstn (Z.to_nat hash_len) hash)
        then 0 else ERR_ECP_VERIFY_FAILED
    end
|}.

(** A parser that refuses the placeholder body of the compiled-in key. *)
Definition strict : faults :=
  {| starts_fault := 0; update_fault := 0; finish_fault := 0;
     strict_pem := true |}.

(** A hash engine that fails while absorbing the payload. *)
Definition hash_fault : faults :=
  {| starts_fault := 0; update_fault := ERR_SHA256_HW_ACCEL_FAILED;
     finish_fault := 0; strict_pem := false |}.

Definition payload : list byte := [x01; x02; x03].

(** The package of the example usage, signed for the test double. *)
Definition good_package : model_package_t := {|
  model_data := payload;
  model_size := 3;
  signature := toy_digest payload;
  signature_size := 32;
  model_id := "object_detector_v2";
  model_version := "2.1.1"
|}.

(** The same payload with signature byte 0 XORed with 0x01. *)
Definition tampered_package : model_package_t := {|
  model_data := payload;
  model_size := 3;
  signature := x00 :: skipn 1 (toy_digest payload);
  signature_size := 32;
  model_id := "object_detector_v2";
  model_version := "2.1.1"
|}.

(** The same payload with a signature that is too short. *)
Definition short_signature_package : model_package_t := {|
  model_data := payload;
  model_size := 3;
  signature := [x01; x02];
  signature_size := 2;
  model_id := "object_detector_v2";
  model_version := "2.1.1"
|}.

(** An empty payload, signed for the test double, under other names. *)
Definition empty_package : model_package_t := {|
  model_data := [];
  model_size := 0;
  signature := toy_digest [];
  signature_size := 32;
  model_id := "empty";
  model_version := "0"
|}.

Definition renamed_package : model_package_t := {|
  model_data := payload;
  model_size := 3;
  signature := toy_digest payload;
  signature_size := 32;
  model_id := "another_name";
  model_version := "9.9"
|}.

(** Another payload with the same toy digest: one more zero byte. *)
Definition padded_package : model_package_t := {|
  model_data := payload ++ [x00];
  model_size := 4;
  signature := toy_digest payload;
  signature_size := 32;
  model_id := "object_detector_v2";
  model_version := "2.1.1"
|}.

Definition busy_world : world :=
  {| trace := [ev_printf "boot" []; ev_sha256_init];
     live := [ctx_sha256] |}.

End Stub.

(** * Properties *)

Lemma strlen_PUBLIC_KEY_PEM :
  strlen PUBLIC_KEY_PEM + 1 = Z.of_nat (List.length (c_str PUBLIC_KEY_PEM)).
Proof. reflexivity. Qed.

Ltac unfold_run :=
  unfold verify_ret, verify_events, load_model_safely,
    verify_model_signature, verify_model_signature_body,
    pk_init, sha256_init, pk_free, sha256_free, pk_parse_public_key,
    sha256_starts_ret, sha256_update_ret, sha256_finish_ret, pk_verify,
    printf, emit, acquire, release, mbind, mret,
    key_rc, digest_rc, signature_rc, verify, digest, check_signature,
    parse_key in *;
  rewrite <- ?strlen_PUBLIC_KEY_PEM in *.

(** Case analysis over the exit paths of a run: name the result of each
    library call, then split on every status test. *)
Ltac name_calls :=
  repeat match goal with
  | |- context [mbedtls_pk_parse_public_key ?l ?c ?k ?n] =>
      let rk := fresh "rk" in let pk := fresh "pk" in let E := fresh "Ek" in
      destruct (mbedtls_pk_parse_public_key l c k n) as [rk pk] eqn:E in *;
      cbn [fst snd] in *
  | |- context [mbedtls_sha256_starts_ret ?l ?c ?n] =>
      let r := fresh "rs" in let c' := fresh "cs" in let E := fresh "Es" in
      destruct (mbedtls_sha256_starts_ret l c n) as [r c'] eqn:E in *;
      cbn [fst snd] in *
  | |- context [mbedtls_sha256_update_ret ?l ?c ?d ?n] =>
      let r := fresh "ru" in let c' := fresh "cu" in let E := fresh "Eu" in
      destruct (mbedtls_sha256_update_ret l c d n) as [r c'] eqn:E in *;
      cbn [fst snd] in *
  | |- context [mbedtls_sha256_finish_ret ?l ?c] =>
      let r := fresh "rf" in let c' := fresh "cf" in let h := fresh "hash" in
      let E := fresh "Ef" in
      destruct (mbedtls_sha256_finish_ret l c) as [[r c'] h] eqn:E in *;
      cbn [fst snd] in *
  | |- context [mbedtls_pk_verify ?l ?k ?m ?h ?n ?s ?j] =>
      let r := fresh "rv" in let E := fresh "Ev" in
      remember (mbedtls_pk_verify l k m h n s j) as r eqn:E in *
  end.

Ltac split_tests :=
  repeat match goal with
  | |- context [?r =? 0] =>
      destruct (Z.eqb_spec r 0); cbn [negb fst snd] in *
  | H : context [?r =? 0] |- _ =>
      destruct (Z.eqb_spec r 0); cbn [negb fst snd] in *
  end.

Ltac run :=
  unfold_run; cbn [fst snd] in *; name_calls; split_tests;
  cbn [fst snd trace live remove_one ctx_eqb] in *.

(** A run returns and appends the same whatever the world it starts in,
    and leaves the live contexts as it found them. *)
Lemma verify_model_signature_frame lib package w :
  verify_model_signature lib package w =
  (verify_ret lib package,
   {| trace := trace w ++ verify_events lib package; live := live w |}).
Proof.
  run; repeat rewrite <- app_assoc; reflexivity.
Qed.

Lemma load_model_safely_unfold lib package w :
  load_model_safely lib package w =
  (if verify_ret lib package =? 0 then 0 else -1,
   snd (verify_model_signature lib package w)).
Proof.
  unfold load_model_safely, mbind.
  rewrite verify_model_signature_frame. cbn [snd].
  destruct (Z.eqb_spec (verify_ret lib package) 0); reflexivity.
Qed.

(** The status returned is the status of the first step that fails, and 0
    when none does; the Verification Gate [verify] decides alike. *)
Lemma verify_ret_cases lib package :
  match verify lib package (c_str PUBLIC_KEY_PEM) with
  | Accepted =>
      key_rc lib = 0 /\ digest_rc lib package = 0 /\
      signature_rc lib package = 0 /\ verify_ret lib package = 0
  | Rejected KeyParseError =>
      key_rc lib <> 0 /\ verify_ret lib package = key_rc lib
  | Rejected DigestComputationError =>
      key_rc lib = 0 /\ digest_rc lib package <> 0 /\
      verify_ret lib package = digest_rc lib package
  | Rejected SignatureInvalid =>
      key_rc lib = 0 /\ digest_rc lib package = 0 /\
      signature_rc lib package <> 0 /\
      verify_ret lib package = signature_rc lib package
  end.
Proof.
  run; subst; try congruence; repeat split; auto.
Qed.

(** What a run appends to the trace: the two initialisations, the library
    calls up to the first failure, the log line of the exit path if it has
    one, and the two releases. *)
Lemma verify_events_shape lib package :
  verify_events lib package =
  [ev_pk_init; ev_sha256_init] ++
  until_failure (pipeline lib package) ++
  match verify lib package (c_str PUBLIC_KEY_PEM) with
  | Accepted =>
      [ev_printf ("Model signature verified: %s v%s" ++ LF)
         [arg_str (model_id package); arg_str (model_version package)]]
  | Rejected KeyParseError =>
      [ev_printf ("Failed to parse public key: %d" ++ LF)
         [arg_int (verify_ret lib package)]]
  | Rejected DigestComputationError => []
  | Rejected SignatureInvalid =>
      [ev_printf ("Model signature verification failed: %d" ++ LF)
         [arg_int (verify_ret lib package)]]
  end ++
  [ev_pk_free; ev_sha256_free].
Proof.
  unfold pipeline.
  run; cbn [until_failure rc_of app];
  repeat match goal with
  | |- context [?r =? 0] => destruct (Z.eqb_spec r 0); cbn [negb app]
  end; subst; try congruence; reflexivity.
Qed.

(** ** Runs on the test double *)

Example run_good_package :
  verify_model_signature (Stub.lib Stub.no_faults) Stub.good_package
    empty_world =
  (0,
   {| trace :=
        [ev_pk_init; ev_sha256_init;
         ev_pk_parse_public_key (c_str PUBLIC_KEY_PEM) 93 0;
         ev_sha256_starts_ret 0 0;
         ev_sha256_update_ret Stub.payload 3 0;
         ev_sha256_finish_ret (Stub.toy_digest Stub.payload) 0;
         ev_pk_verify MBEDTLS_MD_SHA256 (Stub.toy_digest Stub.payload) 32
           (Stub.toy_digest Stub.payload) 32 0;
         ev_printf ("Model signature verified: %s v%s" ++ LF)
           [arg_str "object_detector_v2"; arg_str "2.1.1"];
         ev_pk_free; ev_sha256_free];
      live := [] |}).
Proof. vm_compute. reflexivity. Qed.

Example run_tampered_package :
  verify_model_signature (Stub.lib Stub.no_faults) Stub.tampered_package
    empty_world =
  (Stub.ERR_ECP_VERIFY_FAILED,
   {| trace :=
        [ev_pk_init; ev_sha256_init;
         ev_pk_parse_public_key (c_str PUBLIC_KEY_PEM) 93 0;
         ev_sha256_starts_ret 0 0;
         ev_sha256_update_ret Stub.payload 3 0;
         ev_sha256_finish_ret (Stub.toy_digest Stub.payload) 0;
         ev_pk_verify MBEDTLS_MD_SHA256 (Stub.toy_digest Stub.payload) 32
           (x00 :: skipn 1 (Stub.toy_digest Stub.payload)) 32
           Stub.ERR_ECP_VERIFY_FAILED;
         ev_printf ("Model signature verification failed: %d" ++ LF)
           [arg_int Stub.ERR_ECP_VERIFY_FAILED];
         ev_pk_free; ev_sha256_free];
      live := [] |}).
Proof. vm_compute. reflexivity. Qed.

Example run_hash_fault :
  verify_model_signature (Stub.lib Stub.hash_fault) Stub.good_package
    Stub.busy_world =
  (Stub.ERR_SHA256_HW_ACCEL_FAILED,
   {| trace :=
        [ev_printf "boot" []; ev_sha256_init;
         ev_pk_init; ev_sha256_init;
         ev_pk_parse_public_key (c_str PUBLIC_KEY_PEM) 93 0;
         ev_sha256_starts_ret 0 0;
         ev_sha256_update_ret Stub.payload 3 Stub.ERR_SHA256_HW_ACCEL_FAILED;
         ev_pk_free; ev_sha256_free];
      live := [ctx_sha256] |}).
Proof. vm_compute. reflexivity. Qed.

Example load_good_package :
  fst (load_model_safely (Stub.lib Stub.no_faults) Stub.good_package
         empty_world) = 0.
Proof. vm_compute. reflexivity. Qed.

Example load_tampered_package :
  fst (load_model_safely (Stub.lib Stub.no_faults) Stub.tampered_package
         empty_world) = -1.
Proof. vm_compute. reflexivity. Qed.

(** ** The admit/reject decision *)

(** C1. For every package, library and starting world,
    [verify_model_signature] returns 0 (the package is admitted) if and
    only if key parsing, the digest computation over the payload and the
    signature check all succeed; it returns a non-zero status exactly when
    one of them fails, and it returns 0 exactly when the Verification Gate
    [verify], run on the compiled-in key, admits. *)
Theorem verify_model_signature_accepts_iff_all_steps_succeed
    lib package w :
  (fst (verify_model_signature lib package w) = 0 <->
   key_rc lib = 0 /\ digest_rc lib package = 0 /\
   signature_rc lib package = 0) /\
  (fst (verify_model_signature lib package w) <> 0 <->
   key_rc lib <> 0 \/ digest_rc lib package <> 0 \/
   signature_rc lib package <> 0) /\
  (fst (verify_model_signature lib package w) = 0 <->
   verify lib package (c_str PUBLIC_KEY_PEM) = Accepted).
Proof.
  rewrite verify_model_signature_frame; cbn [fst].
  pose proof (verify_ret_cases lib package) as H.
  destruct (verify lib package (c_str PUBLIC_KEY_PEM)) as [|[]];
    intuition (try congruence; try lia).
Qed.

(** C3. Every run performs the library calls in the order parse key,
    start hash, absorb the whole payload, finish hash into the 32-byte
    digest, check the signature of that digest under the parsed key; it
    stops after the first call whose status is not 0, and the status of
    the last call performed is what the run returns. *)
Theorem verify_model_signature_step_order lib package w :
  exists evs,
    trace (snd (verify_model_signature lib package w)) = trace w ++ evs /\
    filter is_call evs = until_failure (pipeline lib package) /\
    fst (verify_model_signature lib package w) =
    rc_of (last (until_failure (pipeline lib package)) ev_pk_init).
Proof.
  exists (verify_events lib package).
  rewrite verify_model_signature_frame; cbn [fst snd trace].
  split; [reflexivity|].
  split.
  - rewrite verify_events_shape.
    assert (Hcalls : forall l, forallb is_call l = true ->
                               filter is_call l = l).
    { induction l as [|e l IH]; cbn; [reflexivity|].
      destruct (is_call e); cbn; [|discriminate].
      intros Hl. now rewrite IH. }
    cbn [app filter is_call]. rewrite filter_app, Hcalls.
    + destruct (verify lib package (c_str PUBLIC_KEY_PEM)) as [|[]];
        cbn; now rewrite app_nil_r.
    + unfold pipeline. cbn [until_failure rc_of].
      repeat match goal with
      | |- context [?r =? 0] => destruct (Z.eqb_spec r 0); cbn [negb]
      end; reflexivity.
  - unfold pipeline.
    run; cbn [until_failure rc_of last];
    repeat match goal with
    | |- context [?r =? 0] =>
        destruct (Z.eqb_spec r 0); cbn [negb last rc_of]
    end; subst; try congruence; reflexivity.
Qed.

(** C7. Every run, whichever exit path it takes, leaves exactly the
    contexts live that were live before it: the trace it appends opens
    with the initialisation of the public-key and hash contexts and closes
    with the release of both, with only library calls and log lines in
    between. *)
Theorem verify_model_signature_releases_contexts lib package w :
  live (snd (verify_model_signature lib package w)) = live w /\
  exists mid,
    trace (snd (verify_model_signature lib package w)) =
    trace w ++ [ev_pk_init; ev_sha256_init] ++ mid ++
    [ev_pk_free; ev_sha256_free] /\
    forallb (fun e => is_call e || is_printf e) mid = true.
Proof.
  split.
  - run; reflexivity.
  - run; repeat rewrite <- app_assoc; cbn [app];
    match goal with
    | |- exists mid, ?t ++ ?a :: ?b :: ?l = _ /\ _ =>
        exists (removelast (removelast l))
    end; split; reflexivity.
Qed.

(** C6. If the compiled-in key does not parse, the run returns the
    parser's non-zero status, so the package is never admitted; the
    Verification Gate [verify] classifies it as a key parse error; the run does
    nothing but initialise, call the parser, log the parse failure and
    release: no hash or signature primitive is reached. *)
Theorem verify_model_signature_rejects_unparseable_key lib package w :
  key_rc lib <> 0 ->
  fst (verify_model_signature lib package w) = key_rc lib /\
  fst (verify_model_signature lib package w) <> 0 /\
  verify lib package (c_str PUBLIC_KEY_PEM) = Rejected KeyParseError /\
  trace (snd (verify_model_signature lib package w)) =
  trace w ++
  [ev_pk_init; ev_sha256_init;
   ev_pk_parse_public_key (c_str PUBLIC_KEY_PEM)
     (strlen PUBLIC_KEY_PEM + 1) (key_rc lib);
   ev_printf ("Failed to parse public key: %d" ++ LF)
     [arg_int (key_rc lib)];
   ev_pk_free; ev_sha256_free].
Proof.
  intros Hk.
  run; try congruence.
  repeat rewrite <- app_assoc. repeat split; auto.
Qed.

Lemma verify_model_signature_rejects_unparseable_key_witness :
  key_rc (Stub.lib Stub.strict) <> 0 /\
  fst (verify_model_signature (Stub.lib Stub.strict) Stub.good_package
         empty_world) = Stub.ERR_PK_KEY_INVALID_FORMAT /\
  verify (Stub.lib Stub.strict) Stub.good_package (c_str PUBLIC_KEY_PEM) =
  Rejected KeyParseError.
Proof.
  assert (Hk : key_rc (Stub.lib Stub.strict) <> 0)
    by (vm_compute; discriminate).
  split; [exact Hk|].
  destruct (verify_model_signature_rejects_unparseable_key
              (Stub.lib Stub.strict) Stub.good_package empty_world Hk)
    as (Hret & _ & Hkind & _).
  split; [rewrite Hret; reflexivity | exact Hkind].
Defined.

(** ** The load decision point *)

(** C2. [load_model_safely] returns 0 exactly when the verification
    returned 0, that is exactly when the Verification Gate [verify] admits
    the package; any other verification status yields the one refusal
    value -1; and the
    function does nothing to the world beyond its single verification. *)
Theorem load_model_safely_loads_only_accepted lib package w :
  fst (load_model_safely lib package w) =
  (if fst (verify_model_signature lib package w) =? 0 then 0 else -1) /\
  snd (load_model_safely lib package w) =
  snd (verify_model_signature lib package w) /\
  (fst (load_model_safely lib package w) = 0 <->
   verify lib package (c_str PUBLIC_KEY_PEM) = Accepted).
Proof.
  rewrite load_model_safely_unfold, verify_model_signature_frame.
  cbn [fst snd].
  pose proof (verify_ret_cases lib package) as H.
  destruct (verify lib package (c_str PUBLIC_KEY_PEM)) as [|[]];
    destruct (Z.eqb_spec (verify_ret lib package) 0);
    intuition (try congruence; try lia).
Qed.

(** C10. [load_model_safely] returns 0 or -1 and nothing else; whenever
    the verification status is not 0 it returns -1, so two failed
    verifications, whatever their statuses, libraries and packages, give
    the same return value. *)
Theorem load_model_safely_returns_0_or_minus_1 lib package w :
  (fst (load_model_safely lib package w) = 0 \/
   fst (load_model_safely lib package w) = -1) /\
  (fst (verify_model_signature lib package w) <> 0 ->
   fst (load_model_safely lib package w) = -1) /\
  (forall lib' package' w',
     fst (verify_model_signature lib package w) <> 0 ->
     fst (verify_model_signature lib' package' w') <> 0 ->
     fst (load_model_safely lib' package' w') =
     fst (load_model_safely lib package w)).
Proof.
  assert (H : forall l p v,
            fst (verify_model_signature l p v) <> 0 ->
            fst (load_model_safely l p v) = -1).
  { intros l p v. rewrite load_model_safely_unfold.
    rewrite verify_model_signature_frame. cbn [fst].
    destruct (Z.eqb_spec (verify_ret l p) 0); congruence. }
  split; [|split].
  - rewrite load_model_safely_unfold. cbn [fst].
    destruct (verify_ret lib package =? 0); auto.
  - apply H.
  - intros lib' package' w' H1 H2. rewrite (H _ _ _ H1), (H _ _ _ H2).
    reflexivity.
Qed.

(** ** What reaches the caller *)

(** C4, as stated, fails: two packages that the Verification Gate [verify]
    both rejects as an invalid signature make [verify_model_signature]
    return two different values, each the signature primitive's own
    status. *)
Lemma signature_failures_reach_caller_distinctly :
  verify (Stub.lib Stub.no_faults) Stub.tampered_package
    (c_str PUBLIC_KEY_PEM) = Rejected SignatureInvalid /\
  verify (Stub.lib Stub.no_faults) Stub.short_signature_package
    (c_str PUBLIC_KEY_PEM) = Rejected SignatureInvalid /\
  fst (verify_model_signature (Stub.lib Stub.no_faults)
         Stub.tampered_package empty_world) = Stub.ERR_ECP_VERIFY_FAILED /\
  fst (verify_model_signature (Stub.lib Stub.no_faults)
         Stub.short_signature_package empty_world) =
  Stub.ERR_PK_SIG_LEN_MISMATCH /\
  Stub.ERR_ECP_VERIFY_FAILED <> Stub.ERR_PK_SIG_LEN_MISMATCH.
Proof.
  repeat split; try (vm_compute; reflexivity).
  vm_compute; discriminate.
Qed.

(** C4, amended. Every failure inside [verify_model_signature] reaches the
    caller as the non-zero status of the primitive that failed, passed on
    unchanged: the key parser's on a key parse error, the failing hash
    primitive's on a digest error, the signature primitive's on an invalid
    signature; only an admitted package gives 0. *)
Theorem verify_model_signature_returns_failing_status lib package w :
  match verify lib package (c_str PUBLIC_KEY_PEM) with
  | Accepted => fst (verify_model_signature lib package w) = 0
  | Rejected KeyParseError =>
      fst (verify_model_signature lib package w) = key_rc lib /\
      fst (verify_model_signature lib package w) <> 0
  | Rejected DigestComputationError =>
      fst (verify_model_signature lib package w) = digest_rc lib package /\
      fst (verify_model_signature lib package w) <> 0
  | Rejected SignatureInvalid =>
      fst (verify_model_signature lib package w) =
      signature_rc lib package /\
      fst (verify_model_signature lib package w) <> 0
  end.
Proof.
  rewrite verify_model_signature_frame; cbn [fst].
  pose proof (verify_ret_cases lib package) as H.
  destruct (verify lib package (c_str PUBLIC_KEY_PEM)) as [|[]];
    intuition congruence.
Qed.

(** C5, as stated, fails: the key is not an input of a call.  A package
    the program admits is rejected by the Verification Gate [verify] when
    the caller's key is empty; the program has no way to be given that
    key. *)
Lemma trusted_key_is_not_a_call_input :
  fst (verify_model_signature (Stub.lib Stub.no_faults) Stub.good_package
         empty_world) = 0 /\
  verify (Stub.lib Stub.no_faults) Stub.good_package [] =
  Rejected KeyParseError.
Proof.
  split; vm_compute; reflexivity.
Qed.

(** C5, amended. The value [verify_model_signature] returns is a function
    of the payload and signature of the package (each with its size) and
    of nothing else that varies: not the model's identifier or version, not
    the world the call starts in.  The key is the constant
    [PUBLIC_KEY_PEM]: the return value is 0 exactly when the Verification
    Gate [verify] admits the package under that key. *)
Theorem verify_model_signature_deterministic lib p1 p2 w1 w2 :
  model_data p1 = model_data p2 ->
  model_size p1 = model_size p2 ->
  signature p1 = signature p2 ->
  signature_size p1 = signature_size p2 ->
  fst (verify_model_signature lib p1 w1) =
  fst (verify_model_signature lib p2 w2) /\
  (fst (verify_model_signature lib p2 w2) = 0 <->
   verify lib p1 (c_str PUBLIC_KEY_PEM) = Accepted).
Proof.
  intros Hd Hn Hs Hm.
  assert (Heq : fst (verify_model_signature lib p1 w1) =
                fst (verify_model_signature lib p2 w2)).
  { unfold_run. cbn [fst snd]. rewrite Hd, Hn, Hs, Hm.
    name_calls; split_tests; reflexivity. }
  split; [exact Heq|].
  rewrite <- Heq, verify_model_signature_frame; cbn [fst].
  pose proof (verify_ret_cases lib p1) as H.
  destruct (verify lib p1 (c_str PUBLIC_KEY_PEM)) as [|[]];
    intuition congruence.
Qed.

Lemma verify_model_signature_deterministic_witness :
  model_data Stub.good_package = model_data Stub.renamed_package /\
  model_size Stub.good_package = model_size Stub.renamed_package /\
  signature Stub.good_package = signature Stub.renamed_package /\
  signature_size Stub.good_package = signature_size Stub.renamed_package /\
  model_id Stub.good_package <> model_id Stub.renamed_package /\
  fst (verify_model_signature (Stub.lib Stub.no_faults) Stub.good_package
         empty_world) =
  fst (verify_model_signature (Stub.lib Stub.no_faults)
         Stub.renamed_package Stub.busy_world).
Proof.
  repeat (split; [reflexivity|]).
  split; [discriminate|].
  apply (verify_model_signature_deterministic (Stub.lib Stub.no_faults)
           Stub.good_package Stub.renamed_package empty_world
           Stub.busy_world); reflexivity.
Defined.

(** ** Diagnostics *)

(** C8, as stated, fails: when the hash engine fails the run logs nothing
    at all, and when the key does not parse the one line logged carries the
    parser's status but neither the model's identifier nor its version. *)
Lemma rejections_do_not_log_the_model :
  fst (verify_model_signature (Stub.lib Stub.hash_fault) Stub.good_package
         empty_world) = Stub.ERR_SHA256_HW_ACCEL_FAILED /\
  filter is_printf (verify_events (Stub.lib Stub.hash_fault)
                      Stub.good_package) = [] /\
  fst (verify_model_signature (Stub.lib Stub.strict) Stub.good_package
         empty_world) = Stub.ERR_PK_KEY_INVALID_FORMAT /\
  filter is_printf (verify_events (Stub.lib Stub.strict)
                      Stub.good_package) =
  [ev_printf ("Failed to parse public key: %d" ++ LF)
     [arg_int Stub.ERR_PK_KEY_INVALID_FORMAT]] /\
  existsb (names_model Stub.good_package)
    (verify_events (Stub.lib Stub.strict) Stub.good_package) = false.
Proof.
  repeat split; vm_compute; reflexivity.
Qed.

(** C8, amended. A run that admits the package logs exactly one line, and
    that line names the model by identifier and version.  A run that
    rejects for a key parse error or for an invalid signature logs exactly
    one line, carrying the status returned and not naming the model. *)
Theorem verify_model_signature_log_lines lib package w :
  exists evs,
    trace (snd (verify_model_signature lib package w)) = trace w ++ evs /\
    match verify lib package (c_str PUBLIC_KEY_PEM) with
    | Accepted =>
        filter is_printf evs =
        [ev_printf ("Model signature verified: %s v%s" ++ LF)
           [arg_str (model_id package); arg_str (model_version package)]] /\
        existsb (names_model package) evs = true
    | Rejected KeyParseError =>
        filter is_printf evs =
        [ev_printf ("Failed to parse public key: %d" ++ LF)
           [arg_int (fst (verify_model_signature lib package w))]]
    | Rejected SignatureInvalid =>
        filter is_printf evs =
        [ev_printf ("Model signature verification failed: %d" ++ LF)
           [arg_int (fst (verify_model_signature lib package w))]]
    | Rejected DigestComputationError => True
    end.
Proof.
  exists (verify_events lib package).
  rewrite verify_model_signature_frame; cbn [fst snd trace].
  split; [reflexivity|].
  assert (Hcalls : forall l, forallb is_call l = true ->
                             filter is_printf l = [] /\
                             existsb (names_model package) l = false).
  { induction l as [|e l IH]; cbn; [auto|].
    destruct e; cbn; try discriminate; exact IH. }
  assert (Hp : forallb is_call (until_failure (pipeline lib package)) = true).
  { unfold pipeline. cbn [until_failure rc_of].
    repeat match goal with
    | |- context [?r =? 0] => destruct (Z.eqb_spec r 0); cbn [negb]
    end; reflexivity. }
  destruct (Hcalls _ Hp) as [Hf He].
  rewrite verify_events_shape.
  cbn [app filter is_printf existsb names_model orb].
  rewrite filter_app, existsb_app, Hf, He.
  destruct (verify lib package (c_str PUBLIC_KEY_PEM)) as [|[]];
    cbn [app filter is_printf existsb names_model is_str_arg orb];
    rewrite ?String.eqb_refl; auto.
  split; [reflexivity|].
  repeat match goal with
  | |- context [String.eqb ?a ?b] => destruct (String.eqb a b)
  end; reflexivity.
Qed.

(** ** Absence of input checks *)

(** C9. Whatever the sizes a package declares, once the key has parsed and
    the hash has started the hash primitive receives the package's payload
    and [model_size] as they are, and once the digest is computed the
    signature primitive receives the digest, the signature and
    [signature_size] as they are; the value returned is then the signature
    primitive's status and nothing else, so an empty payload is not by
    itself rejected. *)
Theorem verify_model_signature_passes_sizes_unchecked lib package w :
  key_rc lib = 0 ->
  fst (mbedtls_sha256_starts_ret lib (mbedtls_sha256_init lib) 0) = 0 ->
  (exists ru,
     In (ev_sha256_update_ret (model_data package) (model_size package) ru)
        (trace (snd (verify_model_signature lib package w)))) /\
  (digest_rc lib package = 0 ->
   In (ev_pk_verify MBEDTLS_MD_SHA256
         (snd (digest lib (model_data package) (model_size package))) 32
         (signature package) (signature_size package)
         (signature_rc lib package))
      (trace (snd (verify_model_signature lib package w))) /\
   fst (verify_model_signature lib package w) = signature_rc lib package).
Proof.
  intros Hk Hs.
  run; subst; try congruence;
    repeat rewrite <- app_assoc; cbn [app]; split;
    try (intros; congruence);
    try (eexists; apply in_or_app; right; cbn; eauto 10; fail).
  - intros _. split; [|reflexivity].
    apply in_or_app; right; cbn; eauto 10.
  - intros _. split; [|reflexivity].
    apply in_or_app; right; cbn; eauto 10.
Qed.

Lemma verify_model_signature_passes_sizes_unchecked_witness :
  model_size Stub.empty_package = 0 /\
  In (ev_sha256_update_ret [] 0 0)
     (trace (snd (verify_model_signature (Stub.lib Stub.no_faults)
                    Stub.empty_package empty_world))) /\
  fst (verify_model_signature (Stub.lib Stub.no_faults) Stub.empty_package
         empty_world) = 0.
Proof.
  assert (Hk : key_rc (Stub.lib Stub.no_faults) = 0) by reflexivity.
  assert (Hs : fst (mbedtls_sha256_starts_ret (Stub.lib Stub.no_faults)
                      (mbedtls_sha256_init (Stub.lib Stub.no_faults)) 0) = 0)
    by reflexivity.
  destruct (verify_model_signature_passes_sizes_unchecked
              (Stub.lib Stub.no_faults) Stub.empty_package empty_world
              Hk Hs) as [[ru Hu] Hd].
  destruct (Hd eq_refl) as [_ Hret].
  split; [reflexivity|]. split.
  - cbn. right; right; right; right; left. reflexivity.
  - rewrite Hret. reflexivity.
Defined.

(** * Further properties of the two functions *)

(** The status returned, step by step. *)
Lemma verify_ret_first_failure lib package :
  verify_ret lib package =
  if key_rc lib !=? 0 then key_rc lib
  else if digest_rc lib package !=? 0 then digest_rc lib package
  else signature_rc lib package.
Proof.
  run; subst; try congruence; reflexivity.
Qed.

(** ** Hash failures *)

(** X1. When the key parses and one of the three hash primitives fails,
    the run returns that primitive's non-zero status, never calls the
    signature primitive, logs nothing, and still releases both
    contexts. *)
Theorem verify_model_signature_hash_failure lib package w :
  key_rc lib = 0 ->
  digest_rc lib package <> 0 ->
  fst (verify_model_signature lib package w) = digest_rc lib package /\
  (exists evs,
     trace (snd (verify_model_signature lib package w)) = trace w ++ evs /\
     filter is_printf evs = [] /\
     (forall md h n s m rc, ~ In (ev_pk_verify md h n s m rc) evs)) /\
  live (snd (verify_model_signature lib package w)) = live w.
Proof.
  intros Hk Hd.
  run; subst; try congruence; repeat rewrite <- app_assoc; cbn [app];
    (split; [reflexivity|]); (split; [|reflexivity]);
    eexists; (split; [reflexivity|]); (split; [reflexivity|]);
    intros ? ? ? ? ? ? Hin; cbn in Hin;
    repeat (destruct Hin as [Hin|Hin]; [discriminate|]); exact Hin.
Qed.

Lemma verify_model_signature_hash_failure_witness :
  key_rc (Stub.lib Stub.hash_fault) = 0 /\
  digest_rc (Stub.lib Stub.hash_fault) Stub.good_package <> 0 /\
  fst (verify_model_signature (Stub.lib Stub.hash_fault) Stub.good_package
         Stub.busy_world) = Stub.ERR_SHA256_HW_ACCEL_FAILED /\
  live (snd (verify_model_signature (Stub.lib Stub.hash_fault)
               Stub.good_package Stub.busy_world)) = [ctx_sha256].
Proof.
  assert (Hk : key_rc (Stub.lib Stub.hash_fault) = 0) by reflexivity.
  assert (Hd : digest_rc (Stub.lib Stub.hash_fault) Stub.good_package <> 0)
    by (vm_compute; discriminate).
  destruct (verify_model_signature_hash_failure
              (Stub.lib Stub.hash_fault) Stub.good_package Stub.busy_world
              Hk Hd) as (Hret & _ & Hlive).
  split; [exact Hk|]. split; [exact Hd|].
  split; [rewrite Hret; reflexivity | rewrite Hlive; reflexivity].
Defined.

(** X2. A run logs one line, or none: none exactly when the key parsed and
    a hash primitive failed. *)
Theorem verify_model_signature_log_count lib package w :
  exists evs,
    trace (snd (verify_model_signature lib package w)) = trace w ++ evs /\
    List.length (filter is_printf evs) =
    (if (key_rc lib =? 0) && (digest_rc lib package !=? 0)
     then 0%nat else 1%nat).
Proof.
  run; subst; try congruence; repeat rewrite <- app_assoc; cbn [app];
    eexists; (split; [reflexivity|]); reflexivity.
Qed.

(** ** What the identifier and version can influence *)

(** X3. The model's identifier and version reach no library primitive:
    two packages with the same payload and signature make the same library
    calls with the same statuses, and when the package is rejected the two
    runs append the very same trace, log line included. *)
Theorem verify_model_signature_ignores_identity lib p1 p2 w :
  model_data p1 = model_data p2 ->
  model_size p1 = model_size p2 ->
  signature p1 = signature p2 ->
  signature_size p1 = signature_size p2 ->
  filter is_call (trace (snd (verify_model_signature lib p1 w))) =
  filter is_call (trace (snd (verify_model_signature lib p2 w))) /\
  (fst (verify_model_signature lib p1 w) <> 0 ->
   trace (snd (verify_model_signature lib p1 w)) =
   trace (snd (verify_model_signature lib p2 w))).
Proof.
  intros Hd Hn Hs Hm.
  unfold_run. cbn [fst snd]. rewrite Hd, Hn, Hs, Hm.
  name_calls; split_tests; cbn [fst snd trace]; subst;
    split; try reflexivity; try congruence.
  rewrite !filter_app. reflexivity.
Qed.

Lemma verify_model_signature_ignores_identity_witness :
  model_data Stub.tampered_package = model_data
    {| model_data := Stub.payload; model_size := 3;
       signature := x00 :: skipn 1 (Stub.toy_digest Stub.payload);
       signature_size := 32; model_id := "another_name";
       model_version := "9.9" |} /\
  trace (snd (verify_model_signature (Stub.lib Stub.no_faults)
                Stub.tampered_package empty_world)) =
  trace (snd (verify_model_signature (Stub.lib Stub.no_faults)
                {| model_data := Stub.payload; model_size := 3;
                   signature := x00 :: skipn 1 (Stub.toy_digest Stub.payload);
                   signature_size := 32; model_id := "another_name";
                   model_version := "9.9" |} empty_world)).
Proof.
  split; [reflexivity|].
  refine (proj2 (verify_model_signature_ignores_identity
                   (Stub.lib Stub.no_faults) Stub.tampered_package _
                   empty_world eq_refl eq_refl eq_refl eq_refl) _).
  vm_compute; discriminate.
Defined.

(** ** Fixed parameters of the library calls *)

(** X4. Whatever the package, the key parser is handed the compiled-in key
    with a length equal to the size of that buffer, terminating NUL
    included; the hash is started as SHA-256 and never as SHA-224; and the
    signature primitive is asked for SHA-256 over exactly 32 bytes of
    digest. *)
Theorem verify_model_signature_fixed_parameters lib package e :
  In e (verify_events lib package) ->
  match e with
  | ev_pk_parse_public_key key keylen _ =>
      key = c_str PUBLIC_KEY_PEM /\ keylen = Z.of_nat (List.length key) /\
      last key x01 = x00
  | ev_sha256_starts_ret is224 _ => is224 = 0
  | ev_pk_verify md_alg _ hash_len _ _ _ =>
      md_alg = MBEDTLS_MD_SHA256 /\ hash_len = 32
  | _ => True
  end.
Proof.
  rewrite verify_events_shape. unfold pipeline.
  cbn [until_failure rc_of app].
  repeat match goal with
  | |- context [?r =? 0] => destruct (Z.eqb_spec r 0); cbn [negb app]
  end;
  destruct (verify lib package (c_str PUBLIC_KEY_PEM)) as [|[]];
  cbn [app In]; intros Hin;
  repeat (destruct Hin as [Hin|Hin];
          [subst e; repeat split; reflexivity|]);
  destruct Hin.
Qed.

Lemma verify_model_signature_fixed_parameters_witness :
  In (ev_pk_verify MBEDTLS_MD_SHA256 (Stub.toy_digest Stub.payload) 32
        (Stub.toy_digest Stub.payload) 32 0)
     (verify_events (Stub.lib Stub.no_faults) Stub.good_package) /\
  MBEDTLS_MD_SHA256 = MBEDTLS_MD_SHA256 /\ 32 = 32.
Proof.
  assert (Hin : In (ev_pk_verify MBEDTLS_MD_SHA256
                      (Stub.toy_digest Stub.payload) 32
                      (Stub.toy_digest Stub.payload) 32 0)
                   (verify_events (Stub.lib Stub.no_faults)
                      Stub.good_package)).
  { vm_compute. do 6 right. left. reflexivity. }
  split; [exact Hin|].
  exact (verify_model_signature_fixed_parameters
           (Stub.lib Stub.no_faults) Stub.good_package _ Hin).
Defined.

(** ** The payload counts only through its digest *)

(** X5. The payload influences the decision only through what the hash
    primitives make of it: two packages with the same signature whose
    payloads get the same digest status and bytes are given the same
    return value. *)
Theorem verify_model_signature_depends_on_digest lib p1 p2 w1 w2 :
  digest lib (model_data p1) (model_size p1) =
  digest lib (model_data p2) (model_size p2) ->
  signature p1 = signature p2 ->
  signature_size p1 = signature_size p2 ->
  fst (verify_model_signature lib p1 w1) =
  fst (verify_model_signature lib p2 w2).
Proof.
  intros Hd Hs Hm.
  rewrite !verify_model_signature_frame; cbn [fst].
  rewrite !verify_ret_first_failure.
  unfold digest_rc, signature_rc. rewrite Hd, Hs, Hm. reflexivity.
Qed.

Lemma verify_model_signature_depends_on_digest_witness :
  model_data Stub.good_package <> model_data Stub.padded_package /\
  digest (Stub.lib Stub.no_faults) (model_data Stub.good_package)
    (model_size Stub.good_package) =
  digest (Stub.lib Stub.no_faults) (model_data Stub.padded_package)
    (model_size Stub.padded_package) /\
  fst (verify_model_signature (Stub.lib Stub.no_faults) Stub.good_package
         empty_world) =
  fst (verify_model_signature (Stub.lib Stub.no_faults) Stub.padded_package
         empty_world).
Proof.
  split; [discriminate|].
  split; [reflexivity|].
  apply (verify_model_signature_depends_on_digest
           (Stub.lib Stub.no_faults) Stub.good_package Stub.padded_package
           empty_world empty_world); reflexivity.
Defined.

(** ** Soundness over a library that keeps its contract *)

Section LibraryContract.

Variable lib : mbedtls.

(** The function the hash engine computes, and what it means for a
    signature to endorse a digest under a parsed key. *)
Variable H : list byte -> list byte.
Variable Valid : mbedtls_pk_context lib -> list byte -> list byte -> Prop.

(** Started as SHA-256, fed [n] bytes of [data] and finished without error,
    the engine yields the hash of those bytes. *)
Hypothesis hash_contract : forall c data n c1 c2 c3 h,
  mbedtls_sha256_starts_ret lib c 0 = (0, c1) ->
  mbedtls_sha256_update_ret lib c1 data n = (0, c2) ->
  mbedtls_sha256_finish_ret lib c2 = (0, c3, h) ->
  h = H (firstn (Z.to_nat n) data).

(** The signature primitive answers 0 only for a signature that endorses
    the digest. *)
Hypothesis verify_contract : forall pk h sig n,
  mbedtls_pk_verify lib pk MBEDTLS_MD_SHA256 h 32 sig n = 0 ->
  Valid pk h (firstn (Z.to_nat n) sig).

Lemma verify_ret_zero_valid package :
  verify_ret lib package = 0 ->
  exists pk,
    mbedtls_pk_parse_public_key lib (mbedtls_pk_init lib)
      (c_str PUBLIC_KEY_PEM) (strlen PUBLIC_KEY_PEM + 1) = (0, pk) /\
    Valid pk
      (H (firstn (Z.to_nat (model_size package)) (model_data package)))
      (firstn (Z.to_nat (signature_size package)) (signature package)).
Proof.
  run; intros Hret; subst; try congruence.
  exists pk. split; [reflexivity|].
  rewrite <- (hash_contract _ _ _ Es Eu Ef).
  apply verify_contract. congruence.
Qed.

(** X6. Over such a library, [verify_model_signature] returns 0 only if
    the compiled-in key parsed into a key under which the package's
    signature endorses the hash of the package's payload. *)
Theorem verify_model_signature_sound package w :
  fst (verify_model_signature lib package w) = 0 ->
  exists pk,
    mbedtls_pk_parse_public_key lib (mbedtls_pk_init lib)
      (c_str PUBLIC_KEY_PEM) (strlen PUBLIC_KEY_PEM + 1) = (0, pk) /\
    Valid pk
      (H (firstn (Z.to_nat (model_size package)) (model_data package)))
      (firstn (Z.to_nat (signature_size package)) (signature package)).
Proof.
  rewrite verify_model_signature_frame. cbn [fst].
  apply verify_ret_zero_valid.
Qed.

(** X7. Over such a library, [load_model_safely] returns 0 only for a
    package whose signature endorses the hash of its payload under the
    compiled-in key: nothing else is ever loaded. *)
Theorem load_model_safely_sound package w :
  fst (load_model_safely lib package w) = 0 ->
  exists pk,
    mbedtls_pk_parse_public_key lib (mbedtls_pk_init lib)
      (c_str PUBLIC_KEY_PEM) (strlen PUBLIC_KEY_PEM + 1) = (0, pk) /\
    Valid pk
      (H (firstn (Z.to_nat (model_size package)) (model_data package)))
      (firstn (Z.to_nat (signature_size package)) (signature package)).
Proof.
  rewrite load_model_safely_unfold. cbn [fst].
  destruct (Z.eqb_spec (verify_ret lib package) 0) as [Hz|]; [|discriminate].
  intros _. apply verify_ret_zero_valid. exact Hz.
Qed.

End LibraryContract.

(** The test double keeps the contract, with its toy digest as the hash and
    byte equality with the digest as endorsement. *)
Lemma stub_hash_contract f c data n c1 c2 c3 h :
  mbedtls_sha256_starts_ret (Stub.lib f) c 0 = (0, c1) ->
  mbedtls_sha256_update_ret (Stub.lib f) c1 data n = (0, c2) ->
  mbedtls_sha256_finish_ret (Stub.lib f) c2 = (0, c3, h) ->
  h = Stub.toy_digest (firstn (Z.to_nat n) data).
Proof.
  cbn. intros Hs Hu Hf.
  inversion Hs; inversion Hu; inversion Hf; subst. reflexivity.
Defined.

Lemma stub_verify_contract f pk h sig n :
  mbedtls_pk_verify (Stub.lib f) pk MBEDTLS_MD_SHA256 h 32 sig n = 0 ->
  Stub.bytes_eqb (firstn (Z.to_nat n) sig) (firstn 32 h) = true.
Proof.
  cbn. destruct pk; [|discriminate].
  destruct (n <? 32); [discriminate|].
  change (Z.to_nat 32) with 32%nat.
  destruct (Stub.bytes_eqb _ _); [reflexivity|discriminate].
Defined.

Lemma verify_model_signature_sound_witness :
  fst (verify_model_signature (Stub.lib Stub.no_faults) Stub.good_package
         empty_world) = 0 /\
  exists pk,
    mbedtls_pk_parse_public_key (Stub.lib Stub.no_faults)
      (mbedtls_pk_init (Stub.lib Stub.no_faults))
      (c_str PUBLIC_KEY_PEM) (strlen PUBLIC_KEY_PEM + 1) = (0, pk) /\
    Stub.bytes_eqb (firstn 32 (signature Stub.good_package))
      (firstn 32 (Stub.toy_digest (firstn 3 (model_data Stub.good_package))))
    = true.
Proof.
  split; [reflexivity|].
  exact (@verify_model_signature_sound (Stub.lib Stub.no_faults)
           Stub.toy_digest
           (fun _ h sig => Stub.bytes_eqb sig (firstn 32 h) = true)
           (@stub_hash_contract Stub.no_faults)
           (@stub_verify_contract Stub.no_faults)
           Stub.good_package empty_world eq_refl).
Defined.

Lemma load_model_safely_sound_witness :
  fst (load_model_safely (Stub.lib Stub.no_faults) Stub.good_package
         Stub.busy_world) = 0 /\
  exists pk,
    mbedtls_pk_parse_public_key (Stub.lib Stub.no_faults)
      (mbedtls_pk_init (Stub.lib Stub.no_faults))
      (c_str PUBLIC_KEY_PEM) (strlen PUBLIC_KEY_PEM + 1) = (0, pk) /\
    Stub.bytes_eqb (firstn 32 (signature Stub.good_package))
      (firstn 32 (Stub.toy_digest (firstn 3 (model_data Stub.good_package))))
    = true.
Proof.
  split; [reflexivity|].
  exact (@load_model_safely_sound (Stub.lib Stub.no_faults)
           Stub.toy_digest
           (fun _ h sig => Stub.bytes_eqb sig (firstn 32 h) = true)
           (@stub_hash_contract Stub.no_faults)
           (@stub_verify_contract Stub.no_faults)
           Stub.good_package Stub.busy_world eq_refl).
Defined.

(** ** Loading, and loading again *)

(** X8. Whether it loads or refuses, [load_model_safely] leaves exactly
    the contexts live that were live before it, and the last two things it
    does are the release of the public-key context and of the hash
    context. *)
Theorem load_model_safely_releases_contexts lib package w :
  live (snd (load_model_safely lib package w)) = live w /\
  exists evs,
    trace (snd (load_model_safely lib package w)) =
    trace w ++ evs ++ [ev_pk_free; ev_sha256_free].
Proof.
  rewrite load_model_safely_unfold, verify_model_signature_frame.
  cbn [snd live trace]. split; [reflexivity|].
  rewrite verify_events_shape.
  match goal with
  | |- exists evs, _ ++ ?a ++ ?b ++ ?c ++ ?d = _ => exists (a ++ b ++ c)
  end.
  rewrite <- !app_assoc. reflexivity.
Qed.

(** X9. Nothing carries over from one load to the next: after any first
    load, admitted or refused, a second load returns what it would have
    returned on its own, and the trace is the first run's followed by the
    second's. *)
Theorem load_model_safely_twice lib p1 p2 w :
  fst (load_model_safely lib p2 (snd (load_model_safely lib p1 w))) =
  fst (load_model_safely lib p2 w) /\
  trace (snd (load_model_safely lib p2 (snd (load_model_safely lib p1 w)))) =
  trace w ++ verify_events lib p1 ++ verify_events lib p2 /\
  live (snd (load_model_safely lib p2 (snd (load_model_safely lib p1 w)))) =
  live w.
Proof.
  rewrite !load_model_safely_unfold. cbn [fst snd].
  rewrite !verify_model_signature_frame. cbn [fst snd trace live].
  rewrite app_assoc. repeat split; reflexivity.
Qed.
